(** * k3s-deployment: the Pulumi declaration pass of [Infra/__main__.py]

    The program is a straight-line script: it reads one environment value,
    calls sixteen resource constructors of the provisioning library in a
    fixed order and exports four outputs.  It is embedded here as a
    computation in a state-and-error monad over the stack of declarations
    made so far.  The constructors belong to the provisioning library, not
    to the script, so whether a constructor raises is a parameter of the
    embedding ([accepts]); everything else is read off the script.  The
    script's [config = pulumi.Config()] is never read and is left out. *)

From Stdlib Require Import String Ascii List ZArith Bool Lia Arith.
Import ListNotations.

Open Scope string_scope.
Open Scope Z_scope.
Open Scope list_scope.

(** ** Data model *)

(** A deferred attribute of a declared resource, such as [vpc.id] or
    [key_pair.key_name]: the logical name of the resource it comes from and
    the attribute read.  Its value exists only after realization; at
    declaration time it is an edge of the reference graph. *)
Record Output := mkOutput {
  of_resource : string;
  attribute : string
}.

(** The Python object a constructor returns, identified by its logical
    name (the constructor's first argument). *)
Record Handle := mkHandle { logical_name : string }.

Module Attr.
Definition id (h : Handle) : Output := mkOutput (logical_name h) "id".
Definition key_name (h : Handle) : Output := mkOutput (logical_name h) "key_name".
Definition public_ip (h : Handle) : Output := mkOutput (logical_name h) "public_ip".
Definition private_ip (h : Handle) : Output := mkOutput (logical_name h) "private_ip".
End Attr.

(** Keyword arguments of each constructor, one record per resource class,
    with the fields the script passes. *)
Module Vpc.
Record Args := mk {
  cidr_block : string;
  enable_dns_hostnames : bool;
  enable_dns_support : bool
}.
End Vpc.

Module Subnet.
Record Args := mk {
  vpc_id : Output;
  cidr_block : string;
  map_public_ip_on_launch : bool;
  availability_zone : string
}.
End Subnet.

Module InternetGateway.
Record Args := mk { vpc_id : Output }.
End InternetGateway.

(** An entry of a route table's [routes] list: a dict with the key
    ['cidr_block'] and one of ['gateway_id'], ['nat_gateway_id']; a key the
    dict does not have is [None]. *)
Module Route.
Record Args := mk {
  cidr_block : string;
  gateway_id : option Output;
  nat_gateway_id : option Output
}.
End Route.

Module RouteTable.
Record Args := mk {
  vpc_id : Output;
  routes : list Route.Args
}.
End RouteTable.

Module RouteTableAssociation.
Record Args := mk {
  subnet_id : Output;
  route_table_id : Output
}.
End RouteTableAssociation.

Module Eip.
Record Args := mk { vpc : bool }.
End Eip.

Module NatGateway.
Record Args := mk {
  subnet_id : Output;
  allocation_id : Output
}.
End NatGateway.

(** An ingress or egress rule dict of a security group. *)
Module Rule.
Record Args := mk {
  protocol : string;
  from_port : Z;
  to_port : Z;
  cidr_blocks : list string
}.
End Rule.

Module SecurityGroup.
Record Args := mk {
  description : string;
  vpc_id : Output;
  ingress : list Rule.Args;
  egress : list Rule.Args
}.
End SecurityGroup.

(** [public_key] is what [os.getenv] returned: [None] when the variable is
    not set. *)
Module KeyPair.
Record Args := mk {
  key_name : string;
  public_key : option string
}.
End KeyPair.

Module Instance.
Record Args := mk {
  instance_type : string;
  ami : string;
  subnet_id : Output;
  vpc_security_group_ids : list Output;
  key_name : Output;
  tags : list (string * string)
}.
End Instance.

Inductive Args :=
| AVpc (a : Vpc.Args)
| ASubnet (a : Subnet.Args)
| AInternetGateway (a : InternetGateway.Args)
| ARouteTable (a : RouteTable.Args)
| ARouteTableAssociation (a : RouteTableAssociation.Args)
| AEip (a : Eip.Args)
| ANatGateway (a : NatGateway.Args)
| ASecurityGroup (a : SecurityGroup.Args)
| AKeyPair (a : KeyPair.Args)
| AInstance (a : Instance.Args).

(** One declared resource: logical name and constructor arguments. *)
Record Resource := mkResource {
  name : string;
  args : Args
}.

(** What the declaration pass has produced so far: the declared resources
    in declaration order, and the exported outputs in export order. *)
Record Stack := mkStack {
  resources : list Resource;
  exports : list (string * Output)
}.

Definition empty_stack : Stack := mkStack [] [].

(** The process environment, and [os.getenv] on it. *)
Definition Environ := list (string * string).

Fixpoint os_getenv (environ : Environ) (key : string) : option string :=
  match environ with
  | [] => None
  | (k, v) :: rest => if String.eqb k key then Some v else os_getenv rest key
  end.

(** ** Errors and the build monad *)

(** The first three are the error classes the specification names.  The
    script has no [raise] statement and defines no exception class; an
    exception can only come out of a constructor of the provisioning
    library, which is [ProviderError] with the logical name of the resource
    whose constructor raised. *)
Inductive BuildError :=
| ConfigError
| DependencyError
| CycleError
| ProviderError (resource : string).

Inductive Result (A : Type) :=
| Done (a : A) (s : Stack)
| Aborted (e : BuildError) (s : Stack).

Arguments Done {A} a s.
Arguments Aborted {A} e s.

Definition Build (A : Type) : Type := Stack -> Result A.

Definition ret {A} (a : A) : Build A := fun s => Done a s.

Definition bind {A B} (m : Build A) (k : A -> Build B) : Build B :=
  fun s =>
    match m s with
    | Done a s' => k a s'
    | Aborted e s' => Aborted e s'
    end.

Notation "x <- m ;; k" := (bind m (fun x => k))
  (at level 61, m at next level, right associativity).
Notation "m ;;; k" := (bind m (fun _ => k))
  (at level 61, right associativity).

(** Dependencies of a declaration: the logical names of the resources whose
    outputs appear among its arguments. *)
Definition opt_ref (o : option Output) : list string :=
  match o with
  | Some x => [of_resource x]
  | None => []
  end.

Definition route_refs (r : Route.Args) : list string :=
  opt_ref (Route.gateway_id r) ++ opt_ref (Route.nat_gateway_id r).

Definition deps (r : Resource) : list string :=
  match args r with
  | AVpc _ => []
  | ASubnet a => [of_resource (Subnet.vpc_id a)]
  | AInternetGateway a => [of_resource (InternetGateway.vpc_id a)]
  | ARouteTable a =>
      of_resource (RouteTable.vpc_id a) :: flat_map route_refs (RouteTable.routes a)
  | ARouteTableAssociation a =>
      [of_resource (RouteTableAssociation.subnet_id a);
       of_resource (RouteTableAssociation.route_table_id a)]
  | AEip _ => []
  | ANatGateway a =>
      [of_resource (NatGateway.subnet_id a);
       of_resource (NatGateway.allocation_id a)]
  | ASecurityGroup a => [of_resource (SecurityGroup.vpc_id a)]
  | AKeyPair _ => []
  | AInstance a =>
      of_resource (Instance.subnet_id a)
        :: map of_resource (Instance.vpc_security_group_ids a)
        ++ [of_resource (Instance.key_name a)]
  end.

(** ** The provisioning library's constructors *)

Section Provider.

(** Whether the library's constructor accepts a declaration, given the
    declarations made before it.  The library is not part of the script. *)
Variable accepts : list Resource -> Resource -> bool.

(** A constructor call: the declaration is recorded at the end of the
    stack and the object is returned, or the constructor raises and the
    script stops there. *)
Definition register (r : Resource) : Build Handle :=
  fun s =>
    if accepts (resources s) r
    then Done (mkHandle (name r)) (mkStack (resources s ++ [r]) (exports s))
    else Aborted (ProviderError (name r)) s.

Definition ec2_Vpc (n : string) (a : Vpc.Args) := register (mkResource n (AVpc a)).
Definition ec2_Subnet (n : string) (a : Subnet.Args) := register (mkResource n (ASubnet a)).
Definition ec2_InternetGateway (n : string) (a : InternetGateway.Args) :=
  register (mkResource n (AInternetGateway a)).
Definition ec2_RouteTable (n : string) (a : RouteTable.Args) :=
  register (mkResource n (ARouteTable a)).
Definition ec2_RouteTableAssociation (n : string) (a : RouteTableAssociation.Args) :=
  register (mkResource n (ARouteTableAssociation a)).
Definition ec2_Eip (n : string) (a : Eip.Args) := register (mkResource n (AEip a)).
Definition ec2_NatGateway (n : string) (a : NatGateway.Args) :=
  register (mkResource n (ANatGateway a)).
Definition ec2_SecurityGroup (n : string) (a : SecurityGroup.Args) :=
  register (mkResource n (ASecurityGroup a)).
Definition ec2_KeyPair (n : string) (a : KeyPair.Args) :=
  register (mkResource n (AKeyPair a)).
Definition ec2_Instance (n : string) (a : Instance.Args) :=
  register (mkResource n (AInstance a)).

(** [pulumi.export(name, value)]. *)
Definition pulumi_export (n : string) (v : Output) : Build unit :=
  fun s => Done tt (mkStack (resources s) (exports s ++ [(n, v)])).

(** ** The script *)

Definition instance_type : string := "t3.small".
Definition ami : string := "ami-003c463c8207b4dfa".

Definition program (environ : Environ) : Build unit :=
  vpc <- ec2_Vpc "my-vpc" (Vpc.mk "10.0.0.0/16" true true) ;;
  public_subnet <- ec2_Subnet "public-subnet"
    (Subnet.mk (Attr.id vpc) "10.0.1.0/24" true "ap-southeast-1a") ;;
  private_subnet <- ec2_Subnet "private-subnet"
    (Subnet.mk (Attr.id vpc) "10.0.2.0/24" false "ap-southeast-1a") ;;
  igw <- ec2_InternetGateway "internet-gateway" (InternetGateway.mk (Attr.id vpc)) ;;
  public_route_table <- ec2_RouteTable "public-route-table"
    (RouteTable.mk (Attr.id vpc)
       [Route.mk "0.0.0.0/0" (Some (Attr.id igw)) None]) ;;
  public_route_table_association <-
    ec2_RouteTableAssociation "public-route-table-association"
      (RouteTableAssociation.mk (Attr.id public_subnet) (Attr.id public_route_table)) ;;
  eip <- ec2_Eip "nat-eip" (Eip.mk true) ;;
  nat_gateway <- ec2_NatGateway "nat-gateway"
    (NatGateway.mk (Attr.id public_subnet) (Attr.id eip)) ;;
  private_route_table <- ec2_RouteTable "private-route-table"
    (RouteTable.mk (Attr.id vpc)
       [Route.mk "0.0.0.0/0" None (Some (Attr.id nat_gateway))]) ;;
  private_route_table_association <-
    ec2_RouteTableAssociation "private-route-table-association"
      (RouteTableAssociation.mk (Attr.id private_subnet) (Attr.id private_route_table)) ;;
  security_group <- ec2_SecurityGroup "web-secgrp"
    (SecurityGroup.mk "Enable SSH and K3s access" (Attr.id vpc)
       [Rule.mk "tcp" 22 22 ["0.0.0.0/0"];
        Rule.mk "tcp" 6443 6443 ["0.0.0.0/0"]]
       [Rule.mk "-1" 0 0 ["0.0.0.0/0"]]) ;;
  let public_key := os_getenv environ "PUBLIC_KEY" in
  key_pair <- ec2_KeyPair "my-key-pair" (KeyPair.mk "my-key-pair" public_key) ;;
  master_instance <- ec2_Instance "master-instance"
    (Instance.mk instance_type ami (Attr.id private_subnet)
       [(Attr.id security_group)] (Attr.key_name key_pair)
       [("Name", "Master Node")]) ;;
  worker_instance_1 <- ec2_Instance "worker-instance-1"
    (Instance.mk instance_type ami (Attr.id private_subnet)
       [(Attr.id security_group)] (Attr.key_name key_pair)
       [("Name", "Worker Node 1")]) ;;
  worker_instance_2 <- ec2_Instance "worker-instance-2"
    (Instance.mk instance_type ami (Attr.id private_subnet)
       [(Attr.id security_group)] (Attr.key_name key_pair)
       [("Name", "Worker Node 2")]) ;;
  git_runner_instance <- ec2_Instance "git-runner-instance"
    (Instance.mk instance_type ami (Attr.id public_subnet)
       [(Attr.id security_group)] (Attr.key_name key_pair)
       [("Name", "Git Runner")]) ;;
  pulumi_export "git_runner_public_ip" (Attr.public_ip git_runner_instance) ;;;
  pulumi_export "master_private_ip" (Attr.private_ip master_instance) ;;;
  pulumi_export "worker1_private_ip" (Attr.private_ip worker_instance_1) ;;;
  pulumi_export "worker2_private_ip" (Attr.private_ip worker_instance_2).

(** One run of the script, from the empty stack. *)
Definition run (environ : Environ) : Result unit := program environ empty_stack.

(** Declaring a list of resources one after the other. *)
Fixpoint declare_all (rs : list Resource) (s : Stack) : Result unit :=
  match rs with
  | [] => Done tt s
  | r :: rest =>
      if accepts (resources s) r
      then declare_all rest (mkStack (resources s ++ [r]) (exports s))
      else Aborted (ProviderError (name r)) s
  end.

(** A pass [m] amounts to declaring [rs] in order and then exporting [es]. *)
Definition behaves (m : Build unit) (rs : list Resource)
    (es : list (string * Output)) : Prop :=
  forall s,
    m s =
    match declare_all rs s with
    | Done _ s' => Done tt (mkStack (resources s') (exports s' ++ es))
    | Aborted e s' => Aborted e s'
    end.

(** Whether every resource of [rs] is accepted when declared in order after
    [pre]. *)
Fixpoint admits (pre rs : list Resource) : bool :=
  match rs with
  | [] => true
  | r :: rest => accepts pre r && admits (pre ++ [r]) rest
  end.

End Provider.

(** The library that accepts every declaration. *)
Definition permissive : list Resource -> Resource -> bool := fun _ _ => true.

(** What the script declares when no constructor raises, in declaration
    order, and what it exports. *)
Definition final (environ : Environ) : Stack :=
  match run permissive environ with
  | Done _ s => s
  | Aborted _ s => s
  end.

Definition manifest (environ : Environ) : list Resource := resources (final environ).
Definition outputs (environ : Environ) : list (string * Output) := exports (final environ).

(** ** IPv4 CIDR blocks

    The script passes CIDR blocks as strings.  Their meaning as address
    ranges is the usual one: [a.b.c.d/n] is the block of [2^(32-n)]
    addresses that share the first [n] bits of [a.b.c.d]. *)

Definition digit_of (c : ascii) : option Z :=
  let n := Z.of_N (N_of_ascii c) in
  if (48 <=? n) && (n <=? 57) then Some (n - 48) else None.

Fixpoint decimal_from (acc : Z) (s : string) : option Z :=
  match s with
  | EmptyString => Some acc
  | String c rest =>
      match digit_of c with
      | Some d => decimal_from (10 * acc + d) rest
      | None => None
      end
  end.

Definition decimal (s : string) : option Z :=
  match s with
  | EmptyString => None
  | _ => decimal_from 0 s
  end.

Fixpoint split_on (sep : ascii) (s : string) : list string :=
  match s with
  | EmptyString => [EmptyString]
  | String c rest =>
      if Ascii.eqb c sep then EmptyString :: split_on sep rest
      else
        match split_on sep rest with
        | [] => [String c EmptyString]
        | w :: ws => String c w :: ws
        end
  end.

Record Cidr := mkCidr {
  address : Z;
  prefix : Z
}.

Definition parse_cidr (s : string) : option Cidr :=
  match split_on "/" s with
  | [quad; len] =>
      match map decimal (split_on "." quad), decimal len with
      | [Some a; Some b; Some c; Some d], Some n =>
          if forallb (fun x => x <=? 255) [a; b; c; d] && (n <=? 32)
          then Some (mkCidr (((a * 256 + b) * 256 + c) * 256 + d) n)
          else None
      | _, _ => None
      end
  | _ => None
  end.

Definition first_address (c : Cidr) : Z :=
  Z.shiftl (Z.shiftr (address c) (32 - prefix c)) (32 - prefix c).

Definition last_address (c : Cidr) : Z :=
  first_address c + 2 ^ (32 - prefix c) - 1.

Definition cidr_member (ip : Z) (c : Cidr) : bool :=
  (first_address c <=? ip) && (ip <=? last_address c).

Definition cidr_overlap (c1 c2 : Cidr) : bool :=
  Z.max (first_address c1) (first_address c2)
    <=? Z.min (last_address c1) (last_address c2).

Definition cidr_within (inner outer : Cidr) : bool :=
  (first_address outer <=? first_address inner)
    && (last_address inner <=? last_address outer).

(** The default route's destination. *)
Definition default_cidr : string := "0.0.0.0/0".

(** ** Reading a list of declarations *)

Definition vpcs (rs : list Resource) : list (string * Vpc.Args) :=
  flat_map (fun r => match args r with AVpc a => [(name r, a)] | _ => [] end) rs.

Definition subnets (rs : list Resource) : list (string * Subnet.Args) :=
  flat_map (fun r => match args r with ASubnet a => [(name r, a)] | _ => [] end) rs.

Definition route_tables (rs : list Resource) : list (string * RouteTable.Args) :=
  flat_map (fun r => match args r with ARouteTable a => [(name r, a)] | _ => [] end) rs.


Definition internet_gateways (rs : list Resource)
  : list (string * InternetGateway.Args) :=
  flat_map
    (fun r => match args r with AInternetGateway a => [(name r, a)] | _ => [] end) rs.

Definition nat_gateways (rs : list Resource) : list (string * NatGateway.Args) :=
  flat_map (fun r => match args r with ANatGateway a => [(name r, a)] | _ => [] end) rs.

Definition security_groups (rs : list Resource)
  : list (string * SecurityGroup.Args) :=
  flat_map
    (fun r => match args r with ASecurityGroup a => [(name r, a)] | _ => [] end) rs.

Definition key_pairs (rs : list Resource) : list (string * KeyPair.Args) :=
  flat_map (fun r => match args r with AKeyPair a => [(name r, a)] | _ => [] end) rs.

Definition instances (rs : list Resource) : list (string * Instance.Args) :=
  flat_map (fun r => match args r with AInstance a => [(name r, a)] | _ => [] end) rs.

Definition is_instance (r : Resource) : bool :=
  match args r with AInstance _ => true | _ => false end.

(** The default routes of a route table. *)
Definition default_routes (t : RouteTable.Args) : list Route.Args :=
  filter (fun r => String.eqb (Route.cidr_block r) default_cidr) (RouteTable.routes t).

(** Whether a security-group rule lets a packet through.  Protocol ["-1"]
    stands for every protocol and port, as in the script's egress rule. *)
Definition cidrs_cover (ip : Z) (blocks : list string) : bool :=
  existsb
    (fun b => match parse_cidr b with Some c => cidr_member ip c | None => false end)
    blocks.

Definition rule_admits (r : Rule.Args) (proto : string) (port ip : Z) : bool :=
  (String.eqb (Rule.protocol r) "-1"
   || (String.eqb (Rule.protocol r) proto
       && (Rule.from_port r <=? port) && (port <=? Rule.to_port r)))
  && cidrs_cover ip (Rule.cidr_blocks r).

Definition admits_ingress (g : SecurityGroup.Args) (proto : string) (port ip : Z)
  : bool :=
  existsb (fun r => rule_admits r proto port ip) (SecurityGroup.ingress g).

(** Topological order: every declaration comes after the declarations it
    refers to.  [seen] holds the logical names declared before [rs]. *)
Fixpoint topo_ordered (seen : list string) (rs : list Resource) : bool :=
  match rs with
  | [] => true
  | r :: rest =>
      forallb (fun d => existsb (String.eqb d) seen) (deps r)
        && topo_ordered (name r :: seen) rest
  end.

(** The position of the declaration with a given logical name. *)
Fixpoint position (n : string) (rs : list Resource) : option nat :=
  match rs with
  | [] => None
  | r :: rest =>
      if String.eqb (name r) n then Some O
      else option_map S (position n rest)
  end.

(** Lookup by logical name. *)
Fixpoint assoc {A : Type} (n : string) (l : list (string * A)) : option A :=
  match l with
  | [] => None
  | (k, v) :: rest => if String.eqb k n then Some v else assoc n rest
  end.

(** The subnet an instance is placed in, among the declarations [rs]. *)
Definition subnet_of (rs : list Resource) (a : Instance.Args) : option Subnet.Args :=
  assoc (of_resource (Instance.subnet_id a)) (subnets rs).

(** Every referenced resource is declared at an earlier position. *)
Definition declared_before (rs : list Resource) (d : string) (i : nat) : Prop :=
  exists j r, (j < i)%nat /\ nth_error rs j = Some r /\ name r = d.

Definition references_resolved (rs : list Resource) : Prop :=
  forall i r d,
    nth_error rs i = Some r -> In d (deps r) -> declared_before rs d i.

(** ** Libraries and declaration sequences used as test inputs *)

(** A library whose [KeyPair] constructor raises when the key material is
    [None] or the empty string, and that accepts everything else. *)
Definition requires_key_material : list Resource -> Resource -> bool :=
  fun _ r =>
    match args r with
    | AKeyPair a =>
        match KeyPair.public_key a with
        | Some k => negb (String.eqb k "")
        | None => false
        end
    | _ => true
    end.

Definition env_absent : Environ := [("HOME", "/root")].
Definition env_empty : Environ := [("PUBLIC_KEY", "")].
Definition env_key : Environ := [("HOME", "/root"); ("PUBLIC_KEY", "ssh-rsa AAAA")].

Section Probes.

Variable accepts : list Resource -> Resource -> bool.

(** Two subnets of one network whose blocks overlap: the second is the
    upper half of the first. *)
Definition overlapping_subnets : Build unit :=
  vpc <- ec2_Vpc accepts "my-vpc" (Vpc.mk "10.0.0.0/16" true true) ;;
  public_subnet <- ec2_Subnet accepts "public-subnet"
    (Subnet.mk (Attr.id vpc) "10.0.1.0/24" true "ap-southeast-1a") ;;
  private_subnet <- ec2_Subnet accepts "private-subnet"
    (Subnet.mk (Attr.id vpc) "10.0.1.128/25" false "ap-southeast-1a") ;;
  ret tt.

(** A subnet whose block lies outside its network's block. *)
Definition stray_subnet : Build unit :=
  vpc <- ec2_Vpc accepts "my-vpc" (Vpc.mk "10.0.0.0/16" true true) ;;
  public_subnet <- ec2_Subnet accepts "public-subnet"
    (Subnet.mk (Attr.id vpc) "192.168.1.0/24" true "ap-southeast-1a") ;;
  ret tt.


(** A route table with two default routes. *)
Definition two_default_routes : Build unit :=
  vpc <- ec2_Vpc accepts "my-vpc" (Vpc.mk "10.0.0.0/16" true true) ;;
  igw <- ec2_InternetGateway accepts "internet-gateway"
    (InternetGateway.mk (Attr.id vpc)) ;;
  public_route_table <- ec2_RouteTable accepts "public-route-table"
    (RouteTable.mk (Attr.id vpc)
       [Route.mk "0.0.0.0/0" (Some (Attr.id igw)) None;
        Route.mk "0.0.0.0/0" (Some (Attr.id igw)) None]) ;;
  ret tt.

End Probes.

(** ** Further readings of a list of declarations *)

Definition associations (rs : list Resource)
  : list (string * RouteTableAssociation.Args) :=
  flat_map
    (fun r => match args r with
              | ARouteTableAssociation a => [(name r, a)]
              | _ => []
              end) rs.

(** The associations that name a given subnet. *)
Definition associations_of (rs : list Resource) (subnet : string)
  : list (string * RouteTableAssociation.Args) :=
  filter
    (fun x => String.eqb (of_resource (RouteTableAssociation.subnet_id (snd x))) subnet)
    (associations rs).

(** The route table a subnet is associated with. *)
Definition route_table_of (rs : list Resource) (subnet : string)
  : option RouteTable.Args :=
  match associations_of rs subnet with
  | x :: _ =>
      assoc (of_resource (RouteTableAssociation.route_table_id (snd x)))
        (route_tables rs)
  | [] => None
  end.

Definition admits_egress (g : SecurityGroup.Args) (proto : string) (port ip : Z)
  : bool :=
  existsb (fun r => rule_admits r proto port ip) (SecurityGroup.egress g).

(** The network a declaration is placed in, for the classes that take a
    [vpc_id]. *)
Definition vpc_ref (r : Resource) : option Output :=
  match args r with
  | ASubnet a => Some (Subnet.vpc_id a)
  | AInternetGateway a => Some (InternetGateway.vpc_id a)
  | ARouteTable a => Some (RouteTable.vpc_id a)
  | ASecurityGroup a => Some (SecurityGroup.vpc_id a)
  | _ => None
  end.

(** A declaration with the key material of a key pair replaced. *)
Definition with_public_key (k : option string) (r : Resource) : Resource :=
  match args r with
  | AKeyPair a => mkResource (name r) (AKeyPair (KeyPair.mk (KeyPair.key_name a) k))
  | _ => r
  end.

(** The stack a run leaves, completed or not. *)
Definition stack_of (r : Result unit) : Stack :=
  match r with
  | Done _ s => s
  | Aborted _ s => s
  end.

(** No declaration of [rs] refers to an instance declared in [rs]. *)
Definition instances_unreferenced (rs : list Resource) : bool :=
  forallb
    (fun r =>
       forallb
         (fun d => negb (existsb (String.eqb d) (map fst (instances rs))))
         (deps r))
    rs.

(** ** Runs of the script, whatever the library accepts *)

Section Runs.

Variable accepts : list Resource -> Resource -> bool.

Lemma declare_all_admits (rs : list Resource) : forall s,
  admits accepts (resources s) rs = true ->
  declare_all accepts rs s = Done tt (mkStack (resources s ++ rs) (exports s)).
Proof.
  induction rs as [|r rest IH]; intros s H; simpl in *.
  - rewrite app_nil_r. now destruct s.
  - apply andb_true_iff in H as [Hr Hrest]. rewrite Hr.
    rewrite (IH (mkStack (resources s ++ [r]) (exports s))); simpl; auto.
    now rewrite <- app_assoc.
Qed.

Lemma declare_all_done (rs : list Resource) : forall s s',
  declare_all accepts rs s = Done tt s' ->
  admits accepts (resources s) rs = true /\
  s' = mkStack (resources s ++ rs) (exports s).
Proof.
  induction rs as [|r rest IH]; intros s s' H; simpl in *.
  - inversion H; subst. rewrite app_nil_r. split; auto. now destruct s'.
  - destruct (accepts (resources s) r) eqn:Hr; [|discriminate].
    apply IH in H as [Ha ->]. simpl in *. split; auto.
    now rewrite <- app_assoc.
Qed.

(** An aborted pass stopped at the first declaration the library refused:
    the stack holds exactly the declarations before it. *)
Lemma declare_all_aborted (rs : list Resource) : forall s e s',
  declare_all accepts rs s = Aborted e s' ->
  exists pre r post,
    rs = pre ++ r :: post /\
    admits accepts (resources s) pre = true /\
    accepts (resources s ++ pre) r = false /\
    e = ProviderError (name r) /\
    s' = mkStack (resources s ++ pre) (exports s).
Proof.
  induction rs as [|r rest IH]; intros s e s' H; simpl in *.
  - discriminate.
  - destruct (accepts (resources s) r) eqn:Hr.
    + apply IH in H as (pre & r' & post & -> & Ha & Hrej & -> & ->).
      simpl in *. exists (r :: pre), r', post. simpl.
      rewrite <- app_assoc in Hrej. simpl in Hrej.
      rewrite Hr, <- !app_assoc. simpl. repeat split; auto.
    + inversion H; subst. exists [], r, rest. simpl.
      rewrite app_nil_r. repeat split; auto. now destruct s'.
Qed.

(** The rules by which a pass is read as a list of declarations: one per
    constructor call, and the exports at the end. *)
Lemma behaves_register (r : Resource) (k : Handle -> Build unit)
    (rs : list Resource) (es : list (string * Output)) :
  behaves accepts (k (mkHandle (name r))) rs es ->
  behaves accepts (bind (register accepts r) k) (r :: rs) es.
Proof.
  intros Hk s. unfold bind, register. simpl.
  destruct (accepts (resources s) r); [apply Hk|reflexivity].
Qed.

Lemma behaves_export (n : string) (v : Output) (m : Build unit)
    (es : list (string * Output)) :
  behaves accepts m [] es ->
  behaves accepts (bind (pulumi_export n v) (fun _ => m)) [] ((n, v) :: es).
Proof.
  intros Hm s. unfold bind, pulumi_export. rewrite Hm. simpl.
  now rewrite <- app_assoc.
Qed.

Lemma behaves_export_last (n : string) (v : Output) :
  behaves accepts (pulumi_export n v) [] [(n, v)].
Proof. intros s. reflexivity. Qed.

(** The script is the in-order declaration of its manifest, followed by
    its four exports. *)
Lemma program_behaves (environ : Environ) :
  behaves accepts (program accepts environ) (manifest environ) (outputs environ).
Proof.
  enough (H : exists rs es,
             behaves accepts (program accepts environ) rs es /\
             manifest environ = rs /\ outputs environ = es)
    by (destruct H as (rs & es & H & -> & ->); exact H).
  do 2 eexists. split.
  - unfold program, ec2_Vpc, ec2_Subnet, ec2_InternetGateway, ec2_RouteTable,
      ec2_RouteTableAssociation, ec2_Eip, ec2_NatGateway, ec2_SecurityGroup,
      ec2_KeyPair, ec2_Instance.
    cbv zeta.
    do 16 (eapply behaves_register; cbv beta).
    do 3 eapply behaves_export.
    apply behaves_export_last.
  - split; reflexivity.
Qed.

Lemma run_declare_all (environ : Environ) :
  run accepts environ =
  match declare_all accepts (manifest environ) empty_stack with
  | Done _ s => Done tt (mkStack (resources s) (outputs environ))
  | Aborted e s => Aborted e s
  end.
Proof.
  unfold run. rewrite (program_behaves environ empty_stack).
  destruct (declare_all accepts (manifest environ) empty_stack) as [[] s|e s] eqn:H;
    [|reflexivity].
  apply declare_all_done in H as [_ ->]. reflexivity.
Qed.

Lemma final_eta (environ : Environ) :
  final environ = mkStack (manifest environ) (outputs environ).
Proof. unfold manifest, outputs. now destruct (final environ). Qed.

(** A run completes exactly when the library admits the whole manifest, and
    then its stack is the manifest with the four exports. *)
Lemma run_done (environ : Environ) (s : Stack) :
  run accepts environ = Done tt s ->
  admits accepts [] (manifest environ) = true /\ s = final environ.
Proof.
  rewrite run_declare_all, final_eta.
  destruct (declare_all accepts (manifest environ) empty_stack) as [[] s0|e s0] eqn:H;
    [|discriminate].
  apply declare_all_done in H as [Ha ->].
  cbn [resources exports empty_stack app].
  intros E. injection E as <-. split; [exact Ha|reflexivity].
Qed.

Lemma run_admits (environ : Environ) :
  admits accepts [] (manifest environ) = true ->
  run accepts environ = Done tt (final environ).
Proof.
  intros H. rewrite run_declare_all, final_eta.
  now rewrite (declare_all_admits (manifest environ) empty_stack H).
Qed.

Lemma run_aborted (environ : Environ) (e : BuildError) (s : Stack) :
  run accepts environ = Aborted e s ->
  exists pre r post,
    manifest environ = pre ++ r :: post /\
    admits accepts [] pre = true /\
    accepts pre r = false /\
    e = ProviderError (name r) /\
    s = mkStack pre [].
Proof.
  rewrite run_declare_all.
  destruct (declare_all accepts (manifest environ) empty_stack) as [[] s0|e0 s0] eqn:H;
    [discriminate|].
  apply declare_all_aborted in H as (pre & r & post & Hm & Ha & Hrej & -> & ->).
  simpl in *. intros E; inversion E; subst.
  exists pre, r, post. auto.
Qed.

Lemma admits_app (pre a b : list Resource) :
  admits accepts pre (a ++ b) = admits accepts pre a && admits accepts (pre ++ a) b.
Proof.
  revert pre. induction a as [|x a IH]; intros pre; simpl.
  - now rewrite app_nil_r.
  - rewrite IH, <- app_assoc. simpl. now rewrite andb_assoc.
Qed.

(** In an admitted sequence every declaration was accepted after exactly
    the declarations before it. *)
Lemma admits_at (rs a b : list Resource) (r : Resource) :
  admits accepts [] rs = true -> rs = a ++ r :: b -> accepts a r = true.
Proof.
  intros H ->. rewrite admits_app in H. simpl in H.
  apply andb_true_iff in H as [_ H]. now apply andb_true_iff in H as [H _].
Qed.

End Runs.

(** The library that accepts everything lets the script run to its end. *)
Lemma run_permissive (environ : Environ) :
  run permissive environ = Done tt (final environ).
Proof. vm_compute. reflexivity. Qed.

(** Only the value of [PUBLIC_KEY] reaches the declarations. *)
Lemma final_public_key (e1 e2 : Environ) :
  os_getenv e1 "PUBLIC_KEY" = os_getenv e2 "PUBLIC_KEY" -> final e1 = final e2.
Proof.
  intros H. unfold final, run, program. rewrite H. reflexivity.
Qed.

(** The declarations of each class, as the script makes them. *)
Lemma manifest_names (environ : Environ) :
  map name (manifest environ) =
  ["my-vpc"; "public-subnet"; "private-subnet"; "internet-gateway";
   "public-route-table"; "public-route-table-association"; "nat-eip";
   "nat-gateway"; "private-route-table"; "private-route-table-association";
   "web-secgrp"; "my-key-pair"; "master-instance"; "worker-instance-1";
   "worker-instance-2"; "git-runner-instance"].
Proof. vm_compute. reflexivity. Qed.

Lemma manifest_subnets (environ : Environ) :
  subnets (manifest environ) =
  [("public-subnet",
    Subnet.mk (mkOutput "my-vpc" "id") "10.0.1.0/24" true "ap-southeast-1a");
   ("private-subnet",
    Subnet.mk (mkOutput "my-vpc" "id") "10.0.2.0/24" false "ap-southeast-1a")].
Proof. vm_compute. reflexivity. Qed.

Lemma manifest_vpcs (environ : Environ) :
  vpcs (manifest environ) = [("my-vpc", Vpc.mk "10.0.0.0/16" true true)].
Proof. vm_compute. reflexivity. Qed.

Lemma manifest_instances (environ : Environ) :
  instances (manifest environ) =
  let sg := [mkOutput "web-secgrp" "id"] in
  let key := mkOutput "my-key-pair" "key_name" in
  [("master-instance",
    Instance.mk "t3.small" "ami-003c463c8207b4dfa" (mkOutput "private-subnet" "id")
      sg key [("Name", "Master Node")]);
   ("worker-instance-1",
    Instance.mk "t3.small" "ami-003c463c8207b4dfa" (mkOutput "private-subnet" "id")
      sg key [("Name", "Worker Node 1")]);
   ("worker-instance-2",
    Instance.mk "t3.small" "ami-003c463c8207b4dfa" (mkOutput "private-subnet" "id")
      sg key [("Name", "Worker Node 2")]);
   ("git-runner-instance",
    Instance.mk "t3.small" "ami-003c463c8207b4dfa" (mkOutput "public-subnet" "id")
      sg key [("Name", "Git Runner")])].
Proof. vm_compute. reflexivity. Qed.

Lemma manifest_key_pairs (environ : Environ) :
  key_pairs (manifest environ) =
  [("my-key-pair", KeyPair.mk "my-key-pair" (os_getenv environ "PUBLIC_KEY"))].
Proof. vm_compute. reflexivity. Qed.

Lemma manifest_security_groups (environ : Environ) :
  security_groups (manifest environ) =
  [("web-secgrp",
    SecurityGroup.mk "Enable SSH and K3s access" (mkOutput "my-vpc" "id")
      [Rule.mk "tcp" 22 22 ["0.0.0.0/0"]; Rule.mk "tcp" 6443 6443 ["0.0.0.0/0"]]
      [Rule.mk "-1" 0 0 ["0.0.0.0/0"]])].
Proof. vm_compute. reflexivity. Qed.

Lemma manifest_route_tables (environ : Environ) :
  route_tables (manifest environ) =
  [("public-route-table",
    RouteTable.mk (mkOutput "my-vpc" "id")
      [Route.mk "0.0.0.0/0" (Some (mkOutput "internet-gateway" "id")) None]);
   ("private-route-table",
    RouteTable.mk (mkOutput "my-vpc" "id")
      [Route.mk "0.0.0.0/0" None (Some (mkOutput "nat-gateway" "id"))])].
Proof. vm_compute. reflexivity. Qed.

Lemma manifest_nat_gateways (environ : Environ) :
  nat_gateways (manifest environ) =
  [("nat-gateway",
    NatGateway.mk (mkOutput "public-subnet" "id") (mkOutput "nat-eip" "id"))].
Proof. vm_compute. reflexivity. Qed.

Lemma manifest_outputs (environ : Environ) :
  outputs environ =
  [("git_runner_public_ip", mkOutput "git-runner-instance" "public_ip");
   ("master_private_ip", mkOutput "master-instance" "private_ip");
   ("worker1_private_ip", mkOutput "worker-instance-1" "private_ip");
   ("worker2_private_ip", mkOutput "worker-instance-2" "private_ip")].
Proof. vm_compute. reflexivity. Qed.

(** From a completed run to its stack. *)
Ltac completed H :=
  let Ha := fresh "Hadmits" in
  apply run_done in H as [Ha ->];
  change (resources (final ?e)) with (manifest e) in *;
  change (exports (final ?e)) with (outputs e) in *.

(** ** Instances and outputs *)

(** C2, as stated, fails: a completed declaration pass holds four
    instances, not five. *)
Lemma instance_count_counterexample :
  run permissive env_key = Done tt (final env_key) /\
  length (instances (resources (final env_key))) = 4%nat /\
  length (instances (resources (final env_key))) <> 5%nat.
Proof.
  split; [apply run_permissive|]. split; [vm_compute; reflexivity|].
  vm_compute. discriminate.
Qed.

(** C2, amended: a completed declaration pass holds exactly four instances,
    in this order: the master and the two workers, placed in the subnet
    without public addresses, and the git-runner, placed in the subnet with
    public addresses. *)
Theorem four_instances (accepts : list Resource -> Resource -> bool)
    (environ : Environ) (s : Stack) :
  run accepts environ = Done tt s ->
  length (instances (resources s)) = 4%nat /\
  map (fun i =>
         (fst i, assoc "Name" (Instance.tags (snd i)),
          option_map Subnet.map_public_ip_on_launch
            (subnet_of (resources s) (snd i))))
      (instances (resources s)) =
  [("master-instance", Some "Master Node", Some false);
   ("worker-instance-1", Some "Worker Node 1", Some false);
   ("worker-instance-2", Some "Worker Node 2", Some false);
   ("git-runner-instance", Some "Git Runner", Some true)].
Proof.
  intros H. completed H. split; reflexivity.
Qed.

Lemma four_instances_witness :
  run permissive env_key = Done tt (final env_key) /\
  length (instances (resources (final env_key))) = 4%nat.
Proof.
  split; [apply run_permissive|].
  exact (proj1 (four_instances permissive env_key (final env_key)
                  (run_permissive env_key))).
Defined.

(** C9: a completed build has exactly four outputs, in this order:
    [git_runner_public_ip], the [public_ip] of the git-runner instance, and
    [master_private_ip], [worker1_private_ip], [worker2_private_ip], the
    [private_ip] of the master and of the two workers; each of the four
    resources read is a declared instance. *)
Theorem four_outputs (accepts : list Resource -> Resource -> bool)
    (environ : Environ) (s : Stack) :
  run accepts environ = Done tt s ->
  exports s =
  [("git_runner_public_ip", mkOutput "git-runner-instance" "public_ip");
   ("master_private_ip", mkOutput "master-instance" "private_ip");
   ("worker1_private_ip", mkOutput "worker-instance-1" "private_ip");
   ("worker2_private_ip", mkOutput "worker-instance-2" "private_ip")] /\
  forall n o, In (n, o) (exports s) ->
    In (of_resource o) (map fst (instances (resources s))).
Proof.
  intros H. completed H. split; [reflexivity|].
  intros n o Hin. rewrite manifest_outputs in Hin. rewrite manifest_instances.
  simpl in Hin |- *.
  repeat (destruct Hin as [Hin|Hin]; [inversion Hin; subst; simpl; tauto|]).
  contradiction.
Qed.

Lemma four_outputs_witness :
  run permissive env_key = Done tt (final env_key) /\
  map fst (exports (final env_key)) =
  ["git_runner_public_ip"; "master_private_ip"; "worker1_private_ip";
   "worker2_private_ip"].
Proof.
  split; [apply run_permissive|].
  now rewrite (proj1 (four_outputs permissive env_key (final env_key)
                  (run_permissive env_key))).
Defined.

(** C10: a completed pass declares the four instances [master-instance],
    [worker-instance-1], [worker-instance-2] and [git-runner-instance], the
    public subnet (public address on launch) and the private subnet (none).
    Every instance has the one declared security group, the one declared
    key pair, the instance type [t3.small] and the same image; the
    git-runner is placed in the public subnet and it is the only one: the
    master and both workers are placed in the private subnet. *)
Theorem instance_placement (accepts : list Resource -> Resource -> bool)
    (environ : Environ) (s : Stack) :
  run accepts environ = Done tt s ->
  map fst (security_groups (resources s)) = ["web-secgrp"] /\
  map fst (key_pairs (resources s)) = ["my-key-pair"] /\
  map fst (instances (resources s)) =
    ["master-instance"; "worker-instance-1"; "worker-instance-2";
     "git-runner-instance"] /\
  map (fun x => (fst x, Subnet.map_public_ip_on_launch (snd x)))
      (subnets (resources s)) =
    [("public-subnet", true); ("private-subnet", false)] /\
  forall n a, In (n, a) (instances (resources s)) ->
    Instance.vpc_security_group_ids a = [mkOutput "web-secgrp" "id"] /\
    Instance.key_name a = mkOutput "my-key-pair" "key_name" /\
    Instance.instance_type a = instance_type /\
    Instance.ami a = ami /\
    exists sub,
      subnet_of (resources s) a = Some sub /\
      (n = "git-runner-instance" ->
         Instance.subnet_id a = mkOutput "public-subnet" "id" /\
         Subnet.map_public_ip_on_launch sub = true) /\
      (n <> "git-runner-instance" ->
         In n ["master-instance"; "worker-instance-1"; "worker-instance-2"] /\
         Instance.subnet_id a = mkOutput "private-subnet" "id" /\
         Subnet.map_public_ip_on_launch sub = false).
Proof.
  intros H. completed H. split; [reflexivity|]. split; [reflexivity|].
  split; [rewrite manifest_instances; reflexivity|].
  split; [rewrite manifest_subnets; reflexivity|].
  intros n a Hin. rewrite manifest_instances in Hin. simpl in Hin.
  unfold subnet_of. rewrite manifest_subnets.
  repeat (destruct Hin as [Hin|Hin];
          [inversion Hin; subst; clear Hin; simpl;
           repeat split; auto; eexists; split; [reflexivity|];
           split; intros Hn; try discriminate Hn;
           try (exfalso; apply Hn; reflexivity); simpl; auto 6|]).
  contradiction.
Qed.

Lemma instance_placement_witness :
  run permissive env_key = Done tt (final env_key) /\
  map fst (instances (resources (final env_key))) =
    ["master-instance"; "worker-instance-1"; "worker-instance-2";
     "git-runner-instance"] /\
  map (fun x => (fst x, Subnet.map_public_ip_on_launch (snd x)))
      (subnets (resources (final env_key))) =
    [("public-subnet", true); ("private-subnet", false)] /\
  forall n a, In (n, a) (instances (resources (final env_key))) ->
    Instance.vpc_security_group_ids a = [mkOutput "web-secgrp" "id"] /\
    Instance.key_name a = mkOutput "my-key-pair" "key_name" /\
    Instance.instance_type a = instance_type /\
    Instance.ami a = ami /\
    exists sub,
      subnet_of (resources (final env_key)) a = Some sub /\
      (n = "git-runner-instance" ->
         Instance.subnet_id a = mkOutput "public-subnet" "id" /\
         Subnet.map_public_ip_on_launch sub = true) /\
      (n <> "git-runner-instance" ->
         In n ["master-instance"; "worker-instance-1"; "worker-instance-2"] /\
         Instance.subnet_id a = mkOutput "private-subnet" "id" /\
         Subnet.map_public_ip_on_launch sub = false).
Proof.
  split; [apply run_permissive|].
  exact (proj2 (proj2 (instance_placement permissive env_key (final env_key)
                         (run_permissive env_key)))).
Defined.

(** ** Declaration order *)

(** The check [topo_ordered] is sound: when it passes, every reference
    points to an earlier declaration. *)
Lemma topo_ordered_sound (rs : list Resource) : forall pre seen,
  (forall d, In d seen ->
     exists j r, (j < length pre)%nat /\ nth_error pre j = Some r /\ name r = d) ->
  topo_ordered seen rs = true ->
  forall i r d,
    nth_error rs i = Some r -> In d (deps r) ->
    exists j r', (j < length pre + i)%nat /\
                 nth_error (pre ++ rs) j = Some r' /\ name r' = d.
Proof.
  induction rs as [|x rest IH]; intros pre seen Hseen Htopo i r d Hi Hd.
  - destruct i; discriminate.
  - simpl in Htopo. apply andb_true_iff in Htopo as [Hx Hrest].
    destruct i as [|i]; simpl in Hi.
    + inversion Hi; subst x.
      rewrite forallb_forall in Hx. specialize (Hx d Hd).
      apply existsb_exists in Hx as (d' & Hin & Heq).
      apply String.eqb_eq in Heq. subst d'.
      destruct (Hseen d Hin) as (j & r' & Hj & Hnth & Hname).
      exists j, r'. repeat split; auto; [lia|].
      rewrite nth_error_app1; auto.
    + destruct (IH (pre ++ [x]) (name x :: seen)) with (i := i) (r := r) (d := d)
        as (j & r' & Hj & Hnth & Hname); auto.
      * intros d' [<-|Hin].
        -- exists (length pre), x. rewrite length_app. simpl.
           split; [lia|]. split; [|reflexivity].
           rewrite nth_error_app2, Nat.sub_diag; auto.
        -- destruct (Hseen d' Hin) as (j & r' & Hj & Hnth & Hname).
           exists j, r'. rewrite length_app. repeat split; auto; [lia|].
           rewrite nth_error_app1; auto.
      * exists j, r'. rewrite length_app in Hj. simpl in Hj.
        rewrite <- app_assoc in Hnth. simpl in Hnth.
        repeat split; auto. lia.
Qed.

Lemma topo_ordered_resolved (rs : list Resource) :
  topo_ordered [] rs = true -> references_resolved rs.
Proof.
  intros H i r d Hi Hd.
  destruct (topo_ordered_sound rs [] []) with (i := i) (r := r) (d := d)
    as (j & r' & Hj & Hnth & Hname); auto.
  - intros ? [].
  - exists j, r'. auto.
Qed.

Lemma manifest_topo_ordered (environ : Environ) :
  topo_ordered [] (manifest environ) = true.
Proof. vm_compute. reflexivity. Qed.

(** C3: in the declaration-ordered list of a completed pass every resource
    comes after every resource it refers to; logical names are not
    repeated; the network is first; the list is twelve resources that are
    not instances followed by the four instances; and each instance comes
    after its subnet, its security group and its key pair, each of which is
    declared as such. *)
Theorem declaration_order (accepts : list Resource -> Resource -> bool)
    (environ : Environ) (s : Stack) :
  run accepts environ = Done tt s ->
  references_resolved (resources s) /\
  NoDup (map name (resources s)) /\
  hd_error (resources s) =
    Some (mkResource "my-vpc" (AVpc (Vpc.mk "10.0.0.0/16" true true))) /\
  (exists infra insts,
     resources s = infra ++ insts /\
     forallb (fun r => negb (is_instance r)) infra = true /\
     forallb is_instance insts = true /\
     length insts = 4%nat) /\
  forall n a, In (n, a) (instances (resources s)) ->
    exists pi ps pg pk,
      position n (resources s) = Some pi /\
      position (of_resource (Instance.subnet_id a)) (resources s) = Some ps /\
      map (fun g => position (of_resource g) (resources s))
          (Instance.vpc_security_group_ids a) = [Some pg] /\
      position (of_resource (Instance.key_name a)) (resources s) = Some pk /\
      (ps < pi)%nat /\ (pg < pi)%nat /\ (pk < pi)%nat /\
      In (of_resource (Instance.subnet_id a)) (map fst (subnets (resources s))) /\
      incl (map of_resource (Instance.vpc_security_group_ids a))
           (map fst (security_groups (resources s))) /\
      In (of_resource (Instance.key_name a)) (map fst (key_pairs (resources s))).
Proof.
  intros H. completed H.
  split; [apply topo_ordered_resolved, manifest_topo_ordered|].
  split.
  { rewrite manifest_names.
    repeat (constructor; [simpl; intuition discriminate|]). constructor. }
  split; [reflexivity|]. split.
  - exists (firstn 12 (manifest environ)), (skipn 12 (manifest environ)).
    split; [now rewrite firstn_skipn|]. repeat split; reflexivity.
  - intros n a Hin. rewrite manifest_instances in Hin. simpl in Hin.
    rewrite manifest_subnets, manifest_security_groups, manifest_key_pairs.
    repeat (destruct Hin as [Hin|Hin];
            [inversion Hin; subst; clear Hin;
             do 4 eexists;
             repeat (split; [first [reflexivity | simpl; lia | simpl; tauto
                                   | intros x [<-|[]]; simpl; tauto]|]);
             simpl; tauto|]).
    contradiction.
Qed.

Lemma declaration_order_witness :
  run permissive env_key = Done tt (final env_key) /\
  references_resolved (resources (final env_key)).
Proof.
  split; [apply run_permissive|].
  exact (proj1 (declaration_order permissive env_key (final env_key)
                  (run_permissive env_key))).
Defined.

(** C5: runs under the same value of [PUBLIC_KEY] have the same outcome,
    whatever else the environment holds; and two completed runs hand over
    the same resources in the same order, and the same outputs, even under
    different libraries. *)
Theorem resolution_deterministic
    (accepts1 accepts2 : list Resource -> Resource -> bool)
    (environ1 environ2 : Environ) :
  os_getenv environ1 "PUBLIC_KEY" = os_getenv environ2 "PUBLIC_KEY" ->
  run accepts1 environ1 = run accepts1 environ2 /\
  forall s1 s2,
    run accepts1 environ1 = Done tt s1 ->
    run accepts2 environ2 = Done tt s2 ->
    resources s1 = resources s2 /\ exports s1 = exports s2.
Proof.
  intros Hkey. pose proof (final_public_key environ1 environ2 Hkey) as Hfinal.
  split.
  - rewrite !run_declare_all. unfold manifest, outputs. now rewrite Hfinal.
  - intros s1 s2 H1 H2.
    apply run_done in H1 as [_ ->]. apply run_done in H2 as [_ ->].
    now rewrite Hfinal.
Qed.

Lemma resolution_deterministic_witness :
  os_getenv env_key "PUBLIC_KEY" = os_getenv [("PUBLIC_KEY", "ssh-rsa AAAA")] "PUBLIC_KEY" /\
  run requires_key_material env_key
    = run requires_key_material [("PUBLIC_KEY", "ssh-rsa AAAA")].
Proof.
  split; [reflexivity|].
  exact (proj1 (resolution_deterministic requires_key_material permissive
                  env_key [("PUBLIC_KEY", "ssh-rsa AAAA")] eq_refl)).
Defined.

(** ** The key pair *)

(** C1, as stated, fails.  With [PUBLIC_KEY] absent, or set to the empty
    string, the script hands [None], or the empty string, to the key pair's
    constructor.  Under a library that accepts it the pass completes and
    declares the four instances; under one that refuses it the pass stops
    with that library's exception.  Under no library does it stop with
    [ConfigError]. *)
Lemma missing_key_counterexample :
  os_getenv env_absent "PUBLIC_KEY" = None /\
  os_getenv env_empty "PUBLIC_KEY" = Some "" /\
  run permissive env_absent = Done tt (final env_absent) /\
  length (instances (resources (final env_absent))) = 4%nat /\
  run permissive env_empty = Done tt (final env_empty) /\
  length (instances (resources (final env_empty))) = 4%nat /\
  run requires_key_material env_absent =
    Aborted (ProviderError "my-key-pair")
      (mkStack (firstn 11 (manifest env_absent)) []) /\
  (forall accepts environ s, run accepts environ <> Aborted ConfigError s).
Proof.
  repeat (split; [vm_compute; reflexivity|]).
  intros accepts environ s H.
  apply run_aborted in H as (pre & r & post & _ & _ & _ & He & _).
  discriminate He.
Qed.

(** C1, amended: the script does not check [PUBLIC_KEY]; the key pair is
    declared with whatever [os.getenv] returned ([None] when the variable is
    absent), before every instance.  So when the library's [KeyPair]
    constructor refuses that declaration, the pass stops with the library's
    exception at the key pair or before it, and the stack it leaves holds no
    instance and no output. *)
Theorem key_pair_before_instances (accepts : list Resource -> Resource -> bool)
    (environ : Environ) :
  (forall pre r,
     In r (manifest environ) -> name r = "my-key-pair" -> accepts pre r = false) ->
  key_pairs (manifest environ) =
    [("my-key-pair", KeyPair.mk "my-key-pair" (os_getenv environ "PUBLIC_KEY"))] /\
  exists n s,
    run accepts environ = Aborted (ProviderError n) s /\
    In n (map name (firstn 12 (manifest environ))) /\
    instances (resources s) = [] /\
    exports s = [].
Proof.
  intros Hrej. split; [reflexivity|].
  set (kp := mkResource "my-key-pair"
               (AKeyPair (KeyPair.mk "my-key-pair" (os_getenv environ "PUBLIC_KEY")))).
  assert (Hkp : forall pre, accepts pre kp = false).
  { intros pre. apply Hrej; [|reflexivity].
    change (manifest environ)
      with (firstn 11 (manifest environ) ++ kp :: skipn 12 (manifest environ)).
    apply in_elt. }
  destruct (run accepts environ) as [[] s|e s] eqn:Hrun.
  - apply run_done in Hrun as [Ha _].
    pose proof (admits_at accepts (manifest environ) (firstn 11 (manifest environ))
                  (skipn 12 (manifest environ)) kp Ha eq_refl) as Hacc.
    rewrite Hkp in Hacc. discriminate Hacc.
  - apply run_aborted in Hrun as (pre & r & post & Hm & Ha & Hr & -> & ->).
    exists (name r), (mkStack pre []). split; [reflexivity|]. simpl.
    assert (Hlate : forall a, pre = firstn 11 (manifest environ) ++ kp :: a -> False).
    { intros a Hpre.
      pose proof (admits_at accepts pre (firstn 11 (manifest environ)) a kp Ha Hpre)
        as Hacc.
      rewrite Hkp in Hacc. discriminate Hacc. }
    unfold manifest, final, run, program in Hm. cbn in Hm. fold kp in Hm.
    do 12 (destruct pre as [|? pre];
           [injection Hm as <- _; simpl; auto 20|];
           injection Hm as <- Hm).
    exfalso. exact (Hlate pre eq_refl).
Qed.

Lemma key_pair_before_instances_witness :
  (forall pre r,
     In r (manifest env_absent) -> name r = "my-key-pair" ->
     requires_key_material pre r = false) /\
  exists n s,
    run requires_key_material env_absent = Aborted (ProviderError n) s /\
    In n (map name (firstn 12 (manifest env_absent))) /\
    instances (resources s) = [] /\
    exports s = [].
Proof.
  assert (H : forall pre r,
             In r (manifest env_absent) -> name r = "my-key-pair" ->
             requires_key_material pre r = false).
  { intros pre r Hin Hname. vm_compute in Hin.
    repeat (destruct Hin as [Hin|Hin];
            [subst r; first [discriminate Hname | reflexivity]|]).
    contradiction. }
  split; [exact H|].
  exact (proj2 (key_pair_before_instances requires_key_material env_absent H)).
Defined.

(** ** Subnets and their address blocks *)

Lemma cidr_overlap_spec (c1 c2 : Cidr) :
  cidr_overlap c1 c2 = true <->
  exists ip, cidr_member ip c1 = true /\ cidr_member ip c2 = true.
Proof.
  unfold cidr_overlap, cidr_member. rewrite Z.leb_le. split.
  - intros H. exists (Z.max (first_address c1) (first_address c2)).
    rewrite !andb_true_iff, !Z.leb_le. lia.
  - intros (ip & H1 & H2).
    rewrite !andb_true_iff, !Z.leb_le in H1, H2. lia.
Qed.

Lemma cidr_disjoint_spec (c1 c2 : Cidr) :
  cidr_overlap c1 c2 = false ->
  forall ip, ~ (cidr_member ip c1 = true /\ cidr_member ip c2 = true).
Proof.
  intros H ip Hip.
  assert (cidr_overlap c1 c2 = true) by (apply cidr_overlap_spec; eauto).
  congruence.
Qed.

Lemma cidr_within_spec (inner outer : Cidr) :
  cidr_within inner outer = true ->
  forall ip, cidr_member ip inner = true -> cidr_member ip outer = true.
Proof.
  unfold cidr_within, cidr_member. intros H ip.
  rewrite !andb_true_iff, !Z.leb_le in *. lia.
Qed.

(** No pass written with the library's constructors stops with an error
    class of the specification: a constructor either records its
    declaration or raises the library's own exception. *)
Lemma register_error (accepts : list Resource -> Resource -> bool)
    (r : Resource) (s s' : Stack) (e : BuildError) :
  register accepts r s = Aborted e s' -> e = ProviderError (name r).
Proof.
  unfold register. destruct (accepts (resources s) r); intros H; inversion H; auto.
Qed.

Ltac provider_only :=
  unfold bind, ret, ec2_Vpc, ec2_Subnet, ec2_InternetGateway, ec2_RouteTable,
    ec2_Eip, ec2_NatGateway;
  repeat match goal with
         | |- context [register ?acc ?r ?s] =>
             let E := fresh "E" in
             destruct (register acc r s) eqn:E;
             [|apply register_error in E; subst; discriminate]
         end;
  discriminate.

(** C4, as stated, fails: subnets whose blocks overlap, or lie outside the
    network's block, are declared like any other, and no pass stops with
    [ConfigError]. *)
Lemma overlapping_subnets_counterexample :
  (exists s c1 c2,
     overlapping_subnets permissive empty_stack = Done tt s /\
     map (fun x => parse_cidr (Subnet.cidr_block (snd x))) (subnets (resources s))
       = [Some c1; Some c2] /\
     cidr_overlap c1 c2 = true) /\
  (exists s c cv,
     stray_subnet permissive empty_stack = Done tt s /\
     map (fun x => parse_cidr (Subnet.cidr_block (snd x))) (subnets (resources s))
       = [Some c] /\
     map (fun x => parse_cidr (Vpc.cidr_block (snd x))) (vpcs (resources s))
       = [Some cv] /\
     cidr_within c cv = false) /\
  (forall accepts s,
     overlapping_subnets accepts empty_stack <> Aborted ConfigError s) /\
  (forall accepts s, stray_subnet accepts empty_stack <> Aborted ConfigError s).
Proof.
  split; [do 3 eexists; repeat split; reflexivity|].
  split; [do 3 eexists; repeat split; reflexivity|].
  split; intros accepts s.
  - unfold overlapping_subnets. provider_only.
  - unfold stray_subnet. provider_only.
Qed.

(** C4, amended: in a completed pass the subnets are [10.0.1.0/24] and
    [10.0.2.0/24]; each is a subnet of the declared network [10.0.0.0/16]
    and lies within its block, and two different subnets share no address.
    The script makes no such check itself. *)
Theorem subnets_disjoint (accepts : list Resource -> Resource -> bool)
    (environ : Environ) (s : Stack) :
  run accepts environ = Done tt s ->
  map (fun x => (fst x, Subnet.cidr_block (snd x))) (subnets (resources s)) =
    [("public-subnet", "10.0.1.0/24"); ("private-subnet", "10.0.2.0/24")] /\
  (forall n a, In (n, a) (subnets (resources s)) ->
     exists v c cv,
       assoc (of_resource (Subnet.vpc_id a)) (vpcs (resources s)) = Some v /\
       Vpc.cidr_block v = "10.0.0.0/16" /\
       parse_cidr (Subnet.cidr_block a) = Some c /\
       parse_cidr (Vpc.cidr_block v) = Some cv /\
       cidr_within c cv = true /\
       forall ip, cidr_member ip c = true -> cidr_member ip cv = true) /\
  (forall n1 a1 n2 a2,
     In (n1, a1) (subnets (resources s)) ->
     In (n2, a2) (subnets (resources s)) ->
     n1 <> n2 ->
     exists c1 c2,
       parse_cidr (Subnet.cidr_block a1) = Some c1 /\
       parse_cidr (Subnet.cidr_block a2) = Some c2 /\
       cidr_overlap c1 c2 = false /\
       forall ip, ~ (cidr_member ip c1 = true /\ cidr_member ip c2 = true)).
Proof.
  intros H. completed H. rewrite manifest_subnets, manifest_vpcs.
  split; [reflexivity|]. split.
  - intros n a [Hin|[Hin|[]]]; inversion Hin; subst; clear Hin;
      do 3 eexists;
      (split; [reflexivity|]); (split; [reflexivity|]);
      (split; [reflexivity|]); (split; [reflexivity|]);
      (split; [reflexivity|]); apply cidr_within_spec; reflexivity.
  - intros n1 a1 n2 a2 [H1|[H1|[]]] [H2|[H2|[]]] Hne;
      inversion H1; inversion H2; subst; clear H1 H2;
      try (exfalso; apply Hne; reflexivity);
      do 2 eexists;
      (split; [reflexivity|]); (split; [reflexivity|]);
      (split; [reflexivity|]); apply cidr_disjoint_spec; reflexivity.
Qed.

Lemma subnets_disjoint_witness :
  run permissive env_key = Done tt (final env_key) /\
  map (fun x => (fst x, Subnet.cidr_block (snd x)))
      (subnets (resources (final env_key))) =
    [("public-subnet", "10.0.1.0/24"); ("private-subnet", "10.0.2.0/24")].
Proof.
  split; [apply run_permissive|].
  exact (proj1 (subnets_disjoint permissive env_key (final env_key)
                  (run_permissive env_key))).
Defined.

(** ** The NAT gateway *)


Lemma manifest_internet_gateways (environ : Environ) :
  internet_gateways (manifest environ) =
  [("internet-gateway", InternetGateway.mk (mkOutput "my-vpc" "id"))].
Proof. vm_compute. reflexivity. Qed.




(** ** Route tables *)

(** C7, as stated, fails: a route table with two default routes is declared
    like any other, and no pass stops with [ConfigError]. *)
Lemma two_default_routes_counterexample :
  (exists s t,
     two_default_routes permissive empty_stack = Done tt s /\
     route_tables (resources s) = [("public-route-table", t)] /\
     length (default_routes t) = 2%nat) /\
  (forall accepts s,
     two_default_routes accepts empty_stack <> Aborted ConfigError s).
Proof.
  split; [do 2 eexists; repeat split; vm_compute; reflexivity|].
  intros accepts s. unfold two_default_routes. provider_only.
Qed.

(** C7, amended: a completed pass declares two route tables, each with
    exactly one default route ([0.0.0.0/0]): the public table's goes to the
    declared internet gateway, the private table's to the declared NAT
    gateway.  The script makes no check on the number of default routes. *)
Theorem one_default_route (accepts : list Resource -> Resource -> bool)
    (environ : Environ) (s : Stack) :
  run accepts environ = Done tt s ->
  map fst (route_tables (resources s)) =
    ["public-route-table"; "private-route-table"] /\
  (forall n t, In (n, t) (route_tables (resources s)) ->
     length (default_routes t) = 1%nat) /\
  (exists t,
     assoc "public-route-table" (route_tables (resources s)) = Some t /\
     default_routes t =
       [Route.mk "0.0.0.0/0" (Some (mkOutput "internet-gateway" "id")) None] /\
     In "internet-gateway" (map fst (internet_gateways (resources s)))) /\
  (exists t,
     assoc "private-route-table" (route_tables (resources s)) = Some t /\
     default_routes t =
       [Route.mk "0.0.0.0/0" None (Some (mkOutput "nat-gateway" "id"))] /\
     In "nat-gateway" (map fst (nat_gateways (resources s)))).
Proof.
  intros H. completed H.
  rewrite manifest_route_tables, manifest_internet_gateways, manifest_nat_gateways.
  split; [reflexivity|]. split.
  - intros n t [Hin|[Hin|[]]]; inversion Hin; subst; reflexivity.
  - split; eexists; (split; [reflexivity|]); (split; [reflexivity|]);
      simpl; auto.
Qed.

Lemma one_default_route_witness :
  run permissive env_key = Done tt (final env_key) /\
  map fst (route_tables (resources (final env_key))) =
    ["public-route-table"; "private-route-table"].
Proof.
  split; [apply run_permissive|].
  exact (proj1 (one_default_route permissive env_key (final env_key)
                  (run_permissive env_key))).
Defined.

(** ** The security group *)

Lemma cidrs_cover_any (ip : Z) :
  cidrs_cover ip ["0.0.0.0/0"] = true <-> 0 <= ip <= 4294967295.
Proof.
  unfold cidrs_cover. cbn [existsb].
  replace (parse_cidr "0.0.0.0/0") with (Some (mkCidr 0 0))
    by (vm_compute; reflexivity).
  unfold cidr_member.
  replace (first_address (mkCidr 0 0)) with 0 by (vm_compute; reflexivity).
  replace (last_address (mkCidr 0 0)) with 4294967295 by (vm_compute; reflexivity).
  rewrite orb_false_r, andb_true_iff, !Z.leb_le. tauto.
Qed.

(** C8: a completed pass declares one security group; its ingress rules
    are the two rules for TCP 22 and TCP 6443 from [0.0.0.0/0], so it lets
    in a packet exactly when the protocol is TCP, the port is 22 or 6443,
    and the source is any IPv4 address. *)
Theorem ingress_ports (accepts : list Resource -> Resource -> bool)
    (environ : Environ) (s : Stack) :
  run accepts environ = Done tt s ->
  map fst (security_groups (resources s)) = ["web-secgrp"] /\
  forall n g, In (n, g) (security_groups (resources s)) ->
    SecurityGroup.ingress g =
      [Rule.mk "tcp" 22 22 ["0.0.0.0/0"]; Rule.mk "tcp" 6443 6443 ["0.0.0.0/0"]] /\
    forall proto port ip,
      admits_ingress g proto port ip = true <->
      proto = "tcp" /\ (port = 22 \/ port = 6443) /\ 0 <= ip <= 4294967295.
Proof.
  intros H. completed H. rewrite manifest_security_groups.
  split; [reflexivity|].
  intros n g [Hin|[]]. inversion Hin; subst; clear Hin.
  split; [reflexivity|].
  intros proto port ip.
  unfold admits_ingress, rule_admits.
  cbn [existsb SecurityGroup.ingress Rule.protocol Rule.from_port Rule.to_port
       Rule.cidr_blocks].
  replace (String.eqb "tcp" "-1") with false by reflexivity.
  cbn [orb]. rewrite orb_false_r.
  destruct (String.eqb_spec "tcp" proto) as [<-|Hne].
  - cbn [andb].
    rewrite orb_true_iff, !andb_true_iff, !Z.leb_le, cidrs_cover_any.
    intuition lia.
  - cbn [andb orb]. split; [discriminate|].
    intros [E _]. congruence.
Qed.

Lemma ingress_ports_witness :
  run permissive env_key = Done tt (final env_key) /\
  map fst (security_groups (resources (final env_key))) = ["web-secgrp"].
Proof.
  split; [apply run_permissive|].
  exact (proj1 (ingress_ports permissive env_key (final env_key)
                  (run_permissive env_key))).
Defined.

(** ** Stopping early *)

(** Whatever the library accepts, the stack a run leaves is a prefix of the
    manifest. *)
Lemma outcome_prefix (accepts : list Resource -> Resource -> bool)
    (environ : Environ) :
  exists post,
    manifest environ = resources (stack_of (run accepts environ)) ++ post.
Proof.
  destruct (run accepts environ) as [[] s|e s] eqn:H; simpl.
  - apply run_done in H as [_ ->]. exists []. now rewrite app_nil_r.
  - apply run_aborted in H as (pre & r & post & Hm & _ & _ & _ & ->).
    exists (r :: post). exact Hm.
Qed.

Lemma topo_ordered_app (a b : list Resource) : forall seen,
  topo_ordered seen (a ++ b) = true -> topo_ordered seen a = true.
Proof.
  induction a as [|x a IH]; intros seen H; simpl in *; [reflexivity|].
  apply andb_true_iff in H as [Hx Ha]. rewrite Hx. simpl. now apply IH.
Qed.

Lemma manifest_NoDup (environ : Environ) : NoDup (map name (manifest environ)).
Proof.
  rewrite manifest_names.
  repeat (constructor; [simpl; intuition discriminate|]). constructor.
Qed.

Lemma instances_app (a b : list Resource) :
  instances (a ++ b) = instances a ++ instances b.
Proof. unfold instances. apply flat_map_app. Qed.

Lemma instances_unreferenced_sound (rs : list Resource) :
  instances_unreferenced rs = true ->
  forall r d, In r rs -> In d (deps r) -> ~ In d (map fst (instances rs)).
Proof.
  unfold instances_unreferenced. intros H r d Hr Hd Hin.
  rewrite forallb_forall in H. specialize (H r Hr).
  rewrite forallb_forall in H. specialize (H d Hd).
  apply negb_true_iff in H.
  assert (existsb (String.eqb d) (map fst (instances rs)) = true); [|congruence].
  apply existsb_exists. exists d. split; [exact Hin|apply String.eqb_refl].
Qed.

Lemma manifest_unreferenced (environ : Environ) :
  instances_unreferenced (manifest environ) = true.
Proof. vm_compute. reflexivity. Qed.

(** X1: when a constructor raises, the run stops there: the stack holds
    exactly the declarations the script made before the refused one, in the
    script's order, the error names the refused resource, and nothing has
    been exported. *)
Theorem abort_leaves_prefix (accepts : list Resource -> Resource -> bool)
    (environ : Environ) (e : BuildError) (s : Stack) :
  run accepts environ = Aborted e s ->
  exports s = [] /\
  exists r post,
    manifest environ = resources s ++ r :: post /\
    e = ProviderError (name r) /\
    accepts (resources s) r = false /\
    admits accepts [] (resources s) = true /\
    (length (resources s) < 16)%nat.
Proof.
  intros H. apply run_aborted in H as (pre & r & post & Hm & Ha & Hr & -> & ->).
  simpl. split; [reflexivity|]. exists r, post. repeat split; auto.
  assert (Hlen : length (manifest environ) = 16%nat) by (vm_compute; reflexivity).
  rewrite Hm, length_app in Hlen. simpl in Hlen. lia.
Qed.

Lemma abort_leaves_prefix_witness :
  run requires_key_material env_empty =
    Aborted (ProviderError "my-key-pair") (mkStack (firstn 11 (manifest env_empty)) []) /\
  exports (mkStack (firstn 11 (manifest env_empty)) []) = [].
Proof.
  assert (H : run requires_key_material env_empty =
              Aborted (ProviderError "my-key-pair")
                (mkStack (firstn 11 (manifest env_empty)) []))
    by (vm_compute; reflexivity).
  split; [exact H|].
  exact (proj1 (abort_leaves_prefix requires_key_material env_empty _ _ H)).
Defined.

(** X2: the manifest is sixteen declarations, named as in the script and
    in the script's order, and there are four outputs; a run completes
    exactly when the library accepts each of the sixteen after the ones
    before it, and the stack is then the whole manifest with the four
    outputs. *)
Theorem completes_iff_admitted (accepts : list Resource -> Resource -> bool)
    (environ : Environ) (s : Stack) :
  map name (manifest environ) =
    ["my-vpc"; "public-subnet"; "private-subnet"; "internet-gateway";
     "public-route-table"; "public-route-table-association"; "nat-eip";
     "nat-gateway"; "private-route-table"; "private-route-table-association";
     "web-secgrp"; "my-key-pair"; "master-instance"; "worker-instance-1";
     "worker-instance-2"; "git-runner-instance"] /\
  outputs environ =
    [("git_runner_public_ip", mkOutput "git-runner-instance" "public_ip");
     ("master_private_ip", mkOutput "master-instance" "private_ip");
     ("worker1_private_ip", mkOutput "worker-instance-1" "private_ip");
     ("worker2_private_ip", mkOutput "worker-instance-2" "private_ip")] /\
  (run accepts environ = Done tt s <->
   admits accepts [] (manifest environ) = true /\
   s = mkStack (manifest environ) (outputs environ)).
Proof.
  split; [apply manifest_names|]. split; [apply manifest_outputs|].
  rewrite <- final_eta. split.
  - apply run_done.
  - intros [H ->]. now apply run_admits.
Qed.

(** X3: at whatever point a run stops, completed or aborted, the stack it
    leaves is closed: every reference of a declared resource points to a
    resource declared earlier in the stack, and no logical name is declared
    twice. *)
Theorem stack_closed (accepts : list Resource -> Resource -> bool)
    (environ : Environ) :
  references_resolved (resources (stack_of (run accepts environ))) /\
  NoDup (map name (resources (stack_of (run accepts environ)))).
Proof.
  destruct (outcome_prefix accepts environ) as (post & Hm).
  pose proof (manifest_topo_ordered environ) as Ht.
  pose proof (manifest_NoDup environ) as Hn.
  rewrite Hm in Ht, Hn. split.
  - apply topo_ordered_resolved. now apply topo_ordered_app in Ht.
  - rewrite map_app in Hn. now apply NoDup_app_remove_r in Hn.
Qed.

(** X9: at whatever point a run stops, no declared resource refers to an
    instance: the instances are leaves of the reference graph, read only by
    the exports. *)
Theorem instances_are_leaves (accepts : list Resource -> Resource -> bool)
    (environ : Environ) :
  forall r d,
    In r (resources (stack_of (run accepts environ))) ->
    In d (deps r) ->
    ~ In d (map fst (instances (resources (stack_of (run accepts environ))))).
Proof.
  destruct (outcome_prefix accepts environ) as (post & Hm).
  intros r d Hr Hd Hin.
  apply (instances_unreferenced_sound (manifest environ)
           (manifest_unreferenced environ) r d); auto.
  - rewrite Hm. apply in_or_app. now left.
  - rewrite Hm, instances_app, map_app. apply in_or_app. now left.
Qed.

Lemma instances_are_leaves_witness :
  In (mkResource "nat-gateway"
        (ANatGateway (NatGateway.mk (mkOutput "public-subnet" "id")
                        (mkOutput "nat-eip" "id"))))
     (resources (stack_of (run permissive env_key))) /\
  In "public-subnet"
     (deps (mkResource "nat-gateway"
              (ANatGateway (NatGateway.mk (mkOutput "public-subnet" "id")
                              (mkOutput "nat-eip" "id"))))) /\
  ~ In "public-subnet"
      (map fst (instances (resources (stack_of (run permissive env_key))))).
Proof.
  assert (H1 : In (mkResource "nat-gateway"
                     (ANatGateway (NatGateway.mk (mkOutput "public-subnet" "id")
                                     (mkOutput "nat-eip" "id"))))
                  (resources (stack_of (run permissive env_key))))
    by (vm_compute; tauto).
  assert (H2 : In "public-subnet"
                  (deps (mkResource "nat-gateway"
                           (ANatGateway (NatGateway.mk (mkOutput "public-subnet" "id")
                                           (mkOutput "nat-eip" "id"))))))
    by (simpl; tauto).
  split; [exact H1|]. split; [exact H2|].
  exact (instances_are_leaves permissive env_key _ _ H1 H2).
Defined.

(** ** What the environment reaches *)

Lemma manifest_with_public_key (e1 e2 : Environ) :
  manifest e1 = map (with_public_key (os_getenv e1 "PUBLIC_KEY")) (manifest e2).
Proof. vm_compute. reflexivity. Qed.

Lemma outputs_constant (e1 e2 : Environ) : outputs e1 = outputs e2.
Proof. vm_compute. reflexivity. Qed.

(** X4: the environment reaches the declarations only through the key
    material of the key pair: two completed runs, under any environments
    and libraries, declare the same resources in the same order up to the
    key pair's [public_key], and export the same outputs. *)
Theorem environment_reaches_key_pair_only
    (accepts1 accepts2 : list Resource -> Resource -> bool)
    (environ1 environ2 : Environ) (s1 s2 : Stack) :
  run accepts1 environ1 = Done tt s1 ->
  run accepts2 environ2 = Done tt s2 ->
  resources s1 =
    map (with_public_key (os_getenv environ1 "PUBLIC_KEY")) (resources s2) /\
  exports s1 = exports s2.
Proof.
  intros H1 H2. completed H1. completed H2.
  split; [apply manifest_with_public_key|apply outputs_constant].
Qed.

Lemma environment_reaches_key_pair_only_witness :
  run permissive env_key = Done tt (final env_key) /\
  run permissive env_absent = Done tt (final env_absent) /\
  resources (final env_key) =
    map (with_public_key (os_getenv env_key "PUBLIC_KEY"))
      (resources (final env_absent)) /\
  exports (final env_key) = exports (final env_absent).
Proof.
  split; [apply run_permissive|]. split; [apply run_permissive|].
  exact (environment_reaches_key_pair_only permissive permissive
           env_key env_absent (final env_key) (final env_absent)
           (run_permissive env_key) (run_permissive env_absent)).
Defined.

(** ** Routing *)

Lemma manifest_associations (environ : Environ) :
  associations (manifest environ) =
  [("public-route-table-association",
    RouteTableAssociation.mk (mkOutput "public-subnet" "id")
      (mkOutput "public-route-table" "id"));
   ("private-route-table-association",
    RouteTableAssociation.mk (mkOutput "private-subnet" "id")
      (mkOutput "private-route-table" "id"))].
Proof. vm_compute. reflexivity. Qed.

(** X5: in a completed pass every declared subnet is named by exactly one
    route-table association, and the table it is associated with belongs to
    the subnet's own network; every association joins a declared subnet to
    a declared route table, and no two associations name the same table. *)
Theorem subnet_associations (accepts : list Resource -> Resource -> bool)
    (environ : Environ) (s : Stack) :
  run accepts environ = Done tt s ->
  (forall n a, In (n, a) (subnets (resources s)) ->
     length (associations_of (resources s) n) = 1%nat /\
     exists t,
       route_table_of (resources s) n = Some t /\
       RouteTable.vpc_id t = Subnet.vpc_id a) /\
  (forall n x, In (n, x) (associations (resources s)) ->
     In (of_resource (RouteTableAssociation.subnet_id x))
        (map fst (subnets (resources s))) /\
     In (of_resource (RouteTableAssociation.route_table_id x))
        (map fst (route_tables (resources s)))) /\
  NoDup (map (fun x => RouteTableAssociation.route_table_id (snd x))
             (associations (resources s))).
Proof.
  intros H. completed H.
  unfold route_table_of, associations_of.
  rewrite manifest_subnets, manifest_associations, manifest_route_tables.
  split; [|split].
  - intros n a [Hin|[Hin|[]]]; inversion Hin; subst; clear Hin;
      (split; [reflexivity|]); eexists; split; reflexivity.
  - intros n x [Hin|[Hin|[]]]; inversion Hin; subst; clear Hin;
      simpl; tauto.
  - simpl. repeat (constructor; [simpl; intuition discriminate|]). constructor.
Qed.

Lemma subnet_associations_witness :
  run permissive env_key = Done tt (final env_key) /\
  NoDup (map (fun x => RouteTableAssociation.route_table_id (snd x))
             (associations (resources (final env_key)))).
Proof.
  split; [apply run_permissive|].
  exact (proj2 (proj2 (subnet_associations permissive env_key (final env_key)
                         (run_permissive env_key)))).
Defined.

(** X6: in a completed pass every instance has a way out.  The route table
    associated with its subnet has one default route.  For the git-runner
    that route goes to the declared internet gateway.  For the master and
    the workers it goes to the declared NAT gateway, which sits in a subnet
    flagged public, in the same availability zone and network as the
    instance's subnet, whose own table's default route goes to the internet
    gateway. *)
Theorem internet_path (accepts : list Resource -> Resource -> bool)
    (environ : Environ) (s : Stack) :
  run accepts environ = Done tt s ->
  forall n a, In (n, a) (instances (resources s)) ->
    exists sub t r,
      subnet_of (resources s) a = Some sub /\
      route_table_of (resources s) (of_resource (Instance.subnet_id a)) = Some t /\
      default_routes t = [r] /\
      (Subnet.map_public_ip_on_launch sub = true ->
         Route.nat_gateway_id r = None /\
         exists igw,
           Route.gateway_id r = Some (mkOutput igw "id") /\
           In igw (map fst (internet_gateways (resources s)))) /\
      (Subnet.map_public_ip_on_launch sub = false ->
         Route.gateway_id r = None /\
         exists nat g natsub t' r' igw,
           Route.nat_gateway_id r = Some (mkOutput nat "id") /\
           assoc nat (nat_gateways (resources s)) = Some g /\
           assoc (of_resource (NatGateway.subnet_id g)) (subnets (resources s))
             = Some natsub /\
           Subnet.map_public_ip_on_launch natsub = true /\
           Subnet.availability_zone natsub = Subnet.availability_zone sub /\
           Subnet.vpc_id natsub = Subnet.vpc_id sub /\
           route_table_of (resources s) (of_resource (NatGateway.subnet_id g))
             = Some t' /\
           default_routes t' = [r'] /\
           Route.gateway_id r' = Some (mkOutput igw "id") /\
           In igw (map fst (internet_gateways (resources s)))).
Proof.
  intros H. completed H. intros n a Hin.
  rewrite manifest_instances in Hin. simpl in Hin.
  unfold subnet_of, route_table_of, associations_of.
  rewrite manifest_subnets, manifest_associations, manifest_route_tables,
    manifest_nat_gateways, manifest_internet_gateways.
  repeat (destruct Hin as [Hin|Hin];
          [inversion Hin; subst; clear Hin;
           do 3 eexists;
           (split; [reflexivity|]); (split; [reflexivity|]);
           (split; [reflexivity|]);
           split; intros Hflag; try discriminate Hflag;
           (split; [reflexivity|]);
           repeat eexists; first [reflexivity | simpl; tauto]|]).
  contradiction.
Qed.

Lemma internet_path_witness :
  run permissive env_key = Done tt (final env_key) /\
  In ("master-instance",
      Instance.mk "t3.small" "ami-003c463c8207b4dfa" (mkOutput "private-subnet" "id")
        [mkOutput "web-secgrp" "id"] (mkOutput "my-key-pair" "key_name")
        [("Name", "Master Node")])
     (instances (resources (final env_key))) /\
  exists t r,
    route_table_of (resources (final env_key)) "private-subnet" = Some t /\
    default_routes t = [r].
Proof.
  assert (Hin : In ("master-instance",
      Instance.mk "t3.small" "ami-003c463c8207b4dfa" (mkOutput "private-subnet" "id")
        [mkOutput "web-secgrp" "id"] (mkOutput "my-key-pair" "key_name")
        [("Name", "Master Node")])
     (instances (resources (final env_key))))
    by (vm_compute; tauto).
  split; [apply run_permissive|]. split; [exact Hin|].
  destruct (internet_path permissive env_key (final env_key)
              (run_permissive env_key) _ _ Hin)
    as (sub & t & r & _ & Ht & Hr & _).
  exists t, r. split; [exact Ht|exact Hr].
Defined.

(** ** Outbound traffic and the network *)

(** X7: in a completed pass the security group lets every outbound packet
    through: whatever the protocol and the port, a packet to any IPv4
    address is admitted by the egress rules, and none to an address outside
    the IPv4 range. *)
Theorem egress_open (accepts : list Resource -> Resource -> bool)
    (environ : Environ) (s : Stack) :
  run accepts environ = Done tt s ->
  forall n g, In (n, g) (security_groups (resources s)) ->
    forall proto port ip,
      admits_egress g proto port ip = true <-> 0 <= ip <= 4294967295.
Proof.
  intros H. completed H. rewrite manifest_security_groups.
  intros n g [Hin|[]]. inversion Hin; subst; clear Hin.
  intros proto port ip.
  unfold admits_egress, rule_admits.
  cbn [existsb SecurityGroup.egress Rule.protocol Rule.from_port Rule.to_port
       Rule.cidr_blocks].
  replace (String.eqb "-1" "-1") with true by reflexivity.
  cbn [orb andb]. rewrite orb_false_r. apply cidrs_cover_any.
Qed.

Lemma egress_open_witness :
  run permissive env_key = Done tt (final env_key) /\
  In ("web-secgrp",
      SecurityGroup.mk "Enable SSH and K3s access" (mkOutput "my-vpc" "id")
        [Rule.mk "tcp" 22 22 ["0.0.0.0/0"]; Rule.mk "tcp" 6443 6443 ["0.0.0.0/0"]]
        [Rule.mk "-1" 0 0 ["0.0.0.0/0"]])
     (security_groups (resources (final env_key))) /\
  admits_egress
    (SecurityGroup.mk "Enable SSH and K3s access" (mkOutput "my-vpc" "id")
       [Rule.mk "tcp" 22 22 ["0.0.0.0/0"]; Rule.mk "tcp" 6443 6443 ["0.0.0.0/0"]]
       [Rule.mk "-1" 0 0 ["0.0.0.0/0"]])
    "udp" 53 134744072 = true.
Proof.
  assert (Hin : In ("web-secgrp",
      SecurityGroup.mk "Enable SSH and K3s access" (mkOutput "my-vpc" "id")
        [Rule.mk "tcp" 22 22 ["0.0.0.0/0"]; Rule.mk "tcp" 6443 6443 ["0.0.0.0/0"]]
        [Rule.mk "-1" 0 0 ["0.0.0.0/0"]])
     (security_groups (resources (final env_key))))
    by (vm_compute; tauto).
  split; [apply run_permissive|]. split; [exact Hin|].
  apply (egress_open permissive env_key (final env_key)
           (run_permissive env_key) _ _ Hin "udp" 53 134744072).
  lia.
Defined.

(** X8: at whatever point a run stops, every declared subnet, internet
    gateway, route table and security group is placed in the one network
    the script declares first, [my-vpc], and never in another. *)
Theorem single_network (accepts : list Resource -> Resource -> bool)
    (environ : Environ) :
  forall r o,
    In r (resources (stack_of (run accepts environ))) ->
    vpc_ref r = Some o ->
    o = mkOutput "my-vpc" "id" /\
    hd_error (vpcs (resources (stack_of (run accepts environ)))) =
      Some ("my-vpc", Vpc.mk "10.0.0.0/16" true true).
Proof.
  destruct (outcome_prefix accepts environ) as (post & Hm).
  intros r o Hr Ho.
  assert (Hall : forall x, In x (manifest environ) ->
                   vpc_ref x = None \/ vpc_ref x = Some (mkOutput "my-vpc" "id")).
  { intros x Hx. vm_compute in Hx.
    repeat (destruct Hx as [Hx|Hx]; [subst x; vm_compute; tauto|]).
    contradiction. }
  split.
  - destruct (Hall r) as [Hn|Hs]; [|congruence|congruence].
    rewrite Hm. apply in_or_app. now left.
  - destruct (resources (stack_of (run accepts environ))) as [|x pre] eqn:E;
      [contradiction|].
    assert (Hx : x = mkResource "my-vpc" (AVpc (Vpc.mk "10.0.0.0/16" true true))).
    { assert (Hhd : hd_error (manifest environ) =
                    Some (mkResource "my-vpc" (AVpc (Vpc.mk "10.0.0.0/16" true true))))
        by (vm_compute; reflexivity).
      rewrite Hm in Hhd. simpl in Hhd. congruence. }
    subst x. reflexivity.
Qed.

Lemma single_network_witness :
  In (mkResource "internet-gateway"
        (AInternetGateway (InternetGateway.mk (mkOutput "my-vpc" "id"))))
     (resources (stack_of (run requires_key_material env_absent))) /\
  vpc_ref (mkResource "internet-gateway"
             (AInternetGateway (InternetGateway.mk (mkOutput "my-vpc" "id"))))
    = Some (mkOutput "my-vpc" "id") /\
  hd_error (vpcs (resources (stack_of (run requires_key_material env_absent)))) =
    Some ("my-vpc", Vpc.mk "10.0.0.0/16" true true).
Proof.
  assert (H1 : In (mkResource "internet-gateway"
                     (AInternetGateway (InternetGateway.mk (mkOutput "my-vpc" "id"))))
                  (resources (stack_of (run requires_key_material env_absent))))
    by (vm_compute; tauto).
  split; [exact H1|]. split; [reflexivity|].
  exact (proj2 (single_network requires_key_material env_absent _ _ H1 eq_refl)).
Defined.
